(** * Todolist_Backend: the task routes of [routes/main.js]

    A shallow embedding of the five Express route handlers and of the
    repository they call, with the properties of the CRUD contract. *)

From Stdlib Require Import ZArith DecimalString DecimalZ.
From stdpp Require Import base option list gmap strings.

Set Warnings "-register-all".

Local Open Scope string_scope.
Local Open Scope list_scope.
Local Open Scope Z_scope.

(* ===================================================================== *)
(** ** JavaScript values *)
(* ===================================================================== *)

(** The values the handlers touch: request bodies parsed by
    [express.json()], entities and results handed back by the repository,
    thrown errors, and whatever is passed to [res.json].  Numbers are the
    integers (the only number a handler inspects is an affected-row
    count); an object is a finite map from property names to values. *)
Inductive value : Type :=
| VUndefined
| VNull
| VBool (b : bool)
| VNum (n : Z)
| VStr (s : string)
| VArr (items : list value)
| VObj (props : gmap string value).

(** What a computation does when it is run: it returns, or it throws a
    value (an [await] on a rejected promise throws the rejection). *)
Inductive outcome (A : Type) : Type :=
| Returned (a : A)
| Thrown (error : value).
Arguments Returned {A} a.
Arguments Thrown {A} error.

(** The [TypeError] of a property read on [undefined] or [null]. *)
Definition type_error (k : string) : value :=
  VObj (<["name" := VStr "TypeError"]> (<["reading" := VStr k]> ∅)).

(** [v.k] for the property names the handlers read. *)
Definition get_prop (v : value) (k : string) : outcome value :=
  match v with
  | VUndefined | VNull => Thrown (type_error k)
  | VObj props => Returned (default VUndefined (props !! k))
  | _ => Returned VUndefined
  end.

(** [!v] is [negb (truthy v)]. *)
Definition truthy (v : value) : bool :=
  match v with
  | VUndefined | VNull => false
  | VBool b => b
  | VNum n => negb (n =? 0)%Z
  | VStr s => negb (String.eqb s "")
  | VArr _ | VObj _ => true
  end.

(** An object literal [{ k1: v1, ..., kn: vn }]. *)
Definition obj (props : list (string * value)) : value :=
  VObj (list_to_map props).

(** [v === n] for a number literal [n]. *)
Definition strict_eq_num (v : value) (n : Z) : bool :=
  match v with
  | VNum m => (m =? n)%Z
  | _ => false
  end.

(* ===================================================================== *)
(** ** Computations with state and exceptions *)
(* ===================================================================== *)

(** A computation over a mutable world [W].  A throw keeps the world as it
    was at the point of the throw, as in JavaScript. *)
Definition M (W A : Type) : Type := W -> outcome A * W.

Definition ret {W A} (a : A) : M W A := fun w => (Returned a, w).

Definition throw {W A} (e : value) : M W A := fun w => (Thrown e, w).

Definition bind {W A B} (m : M W A) (k : A -> M W B) : M W B :=
  fun w =>
    match m w with
    | (Returned a, w') => k a w'
    | (Thrown e, w') => (Thrown e, w')
    end.

(** [try { body } catch (error) { handler error }] *)
Definition try_catch {W A} (body : M W A) (handler : value -> M W A) : M W A :=
  fun w =>
    match body w with
    | (Returned a, w') => (Returned a, w')
    | (Thrown e, w') => handler e w'
    end.

Definition lift_outcome {W A} (o : outcome A) : M W A := fun w => (o, w).

Declare Scope js_scope.
Delimit Scope js_scope with js.
Notation "'let!' x ':=' m 'in' k" := (bind m (fun x => k))
  (at level 10, x name, m at level 100, k at level 200) : js_scope.
Notation "m ';;;' k" := (bind m (fun _ => k))
  (at level 100, k at level 200, right associativity) : js_scope.
Notation "'try!' body 'catch' handler" := (try_catch body handler)
  (at level 10, body at level 200, handler at level 9) : js_scope.

(* ===================================================================== *)
(** ** The Express response object *)
(* ===================================================================== *)

(** [res]: the status code set so far (200 until [res.status] is called)
    and the responses written, in order, each with the status it was sent
    under. *)
Record Response : Type := mkResponse {
  statusCode : Z;
  sent : list (Z * value)
}.

Definition fresh_response : Response :=
  {| statusCode := 200; sent := [] |}.

(** The request: the [:id] path segment (a string; the empty string on
    the routes without one) and the parsed body. *)
Record Request : Type := mkRequest {
  params_id : string;
  body : value
}.

(** The operations of a repository over a store [St]: each may return a
    value or throw, and may change the store. *)
Record Repository (St : Type) : Type := mkRepository {
  find : M St value;
  findOne : value -> M St value;
  create : value -> M St value;
  save : value -> M St value;
  update : value -> value -> M St value;
  delete : value -> M St value
}.
Arguments find {St} _.
Arguments findOne {St} _ _.
Arguments create {St} _ _.
Arguments save {St} _ _.
Arguments update {St} _ _ _.
Arguments delete {St} _ _.

(** What a handler runs in: the store behind the repository and the
    response object of the request. *)
Record World (St : Type) : Type := mkWorld {
  store : St;
  res : Response
}.
Arguments mkWorld {St} _ _.
Arguments store {St} _.
Arguments res {St} _.

Module Routes.
Section Handlers.

Context {St : Type} (repository : Repository St).

Local Open Scope js_scope.

(** [await op]: run a repository operation against the store. *)
Definition await {A} (op : M St A) : M (World St) A :=
  fun w =>
    let '(o, s) := op (store w) in
    (o, {| store := s; res := res w |}).

(** [res.status(code)] *)
Definition res_status (code : Z) : M (World St) unit :=
  fun w =>
    (Returned tt,
     {| store := store w;
        res := {| statusCode := code; sent := sent (res w) |} |}).

(** [res.json(v)] *)
Definition res_json (v : value) : M (World St) unit :=
  fun w =>
    (Returned tt,
     {| store := store w;
        res := {| statusCode := statusCode (res w);
                  sent := sent (res w) ++ [(statusCode (res w), v)] |} |}).

(** [router.route('/').get] *)
Definition route_root_get (req : Request) : M (World St) unit :=
  try! (
    let! data := await (find repository) in
    res_json data
  ) catch (fun error =>
    res_status 500 ;;; res_json error
  ).

(** [router.route('/').post] *)
Definition route_root_post (req : Request) : M (World St) unit :=
  try! (
    let! title := lift_outcome (get_prop (body req) "title") in
    let! description := lift_outcome (get_prop (body req) "description") in
    let! dueDate := lift_outcome (get_prop (body req) "dueDate") in
    let! record := await (create repository (obj [
      ("title", title);
      ("description", description);
      ("dueDate", dueDate)
    ])) in
    let! task := await (save repository record) in
    res_status 200 ;;; res_json task
  ) catch (fun error =>
    res_status 500 ;;; res_json error
  ).

(** [router.route('/:id').get] *)
Definition route_id_get (req : Request) : M (World St) unit :=
  try! (
    let! task := await (findOne repository (obj [
      ("where", obj [("id", VStr (params_id req))])
    ])) in
    if negb (truthy task) then
      res_status 404 ;;; res_json (VStr "Task not found")
    else
      res_json task
  ) catch (fun error =>
    res_status 500 ;;; res_json error
  ).

(** [router.route('/:id').patch] *)
Definition route_id_patch (req : Request) : M (World St) unit :=
  try! (
    let! title := lift_outcome (get_prop (body req) "title") in
    let! description := lift_outcome (get_prop (body req) "description") in
    let! dueDate := lift_outcome (get_prop (body req) "dueDate") in
    let! isFinished := lift_outcome (get_prop (body req) "isFinished") in
    let! result := await (update repository
      (obj [("id", VStr (params_id req))])
      (obj [
        ("title", title);
        ("description", description);
        ("dueDate", dueDate);
        ("isFinished", isFinished)
      ])) in
    let! affected := lift_outcome (get_prop result "affected") in
    if strict_eq_num affected 0 then
      res_status 404 ;;; res_json (VStr "Task not found")
    else
      res_status 200 ;;; res_json (VStr "Task updated successfully")
  ) catch (fun error =>
    res_status 500 ;;; res_json error
  ).

(** [router.route('/:id').delete] *)
Definition route_id_delete (req : Request) : M (World St) unit :=
  try! (
    let! result := await (delete repository (obj [("id", VStr (params_id req))])) in
    let! affected := lift_outcome (get_prop result "affected") in
    if strict_eq_num affected 0 then
      res_status 404 ;;; res_json (VStr "Task not found")
    else
      res_status 200 ;;; res_json (VStr "Task deleted successfully")
  ) catch (fun error =>
    res_status 500 ;;; res_json error
  ).

(** The router: the five handlers by method and path. *)
Inductive Route : Type :=
| GET_root
| POST_root
| GET_id
| PATCH_id
| DELETE_id.

Definition router (r : Route) : Request -> M (World St) unit :=
  match r with
  | GET_root => route_root_get
  | POST_root => route_root_post
  | GET_id => route_id_get
  | PATCH_id => route_id_patch
  | DELETE_id => route_id_delete
  end.

(** One request served against the store [s]: the handler runs with a
    response object of its own. *)
Definition serve (r : Route) (req : Request) (s : St)
  : outcome unit * World St :=
  router r req {| store := s; res := fresh_response |}.

(** The responses the request got, and the store it left. *)
Definition responses (r : Route) (req : Request) (s : St) : list (Z * value) :=
  sent (res (snd (serve r req s))).

Definition store_after (r : Route) (req : Request) (s : St) : St :=
  store (snd (serve r req s)).

(** [awaited_throws r req s e]: serving [req] on route [r] from the
    store [s], a repository operation the handler awaits rejects with
    [e]. *)
Inductive awaited_throws : Route -> Request -> St -> value -> Prop :=
| find_throws req s s' e :
    find repository s = (Thrown e, s') ->
    awaited_throws GET_root req s e
| create_throws req s s' e title description dueDate :
    get_prop (body req) "title" = Returned title ->
    get_prop (body req) "description" = Returned description ->
    get_prop (body req) "dueDate" = Returned dueDate ->
    create repository
      (obj [("title", title); ("description", description);
            ("dueDate", dueDate)]) s = (Thrown e, s') ->
    awaited_throws POST_root req s e
| save_throws req s s1 s' e title description dueDate record :
    get_prop (body req) "title" = Returned title ->
    get_prop (body req) "description" = Returned description ->
    get_prop (body req) "dueDate" = Returned dueDate ->
    create repository
      (obj [("title", title); ("description", description);
            ("dueDate", dueDate)]) s = (Returned record, s1) ->
    save repository record s1 = (Thrown e, s') ->
    awaited_throws POST_root req s e
| findOne_throws req s s' e :
    findOne repository
      (obj [("where", obj [("id", VStr (params_id req))])]) s
      = (Thrown e, s') ->
    awaited_throws GET_id req s e
| update_throws req s s' e title description dueDate isFinished :
    get_prop (body req) "title" = Returned title ->
    get_prop (body req) "description" = Returned description ->
    get_prop (body req) "dueDate" = Returned dueDate ->
    get_prop (body req) "isFinished" = Returned isFinished ->
    update repository
      (obj [("id", VStr (params_id req))])
      (obj [("title", title); ("description", description);
            ("dueDate", dueDate); ("isFinished", isFinished)]) s
      = (Thrown e, s') ->
    awaited_throws PATCH_id req s e
| delete_throws req s s' e :
    delete repository (obj [("id", VStr (params_id req))]) s
      = (Thrown e, s') ->
    awaited_throws DELETE_id req s e.

End Handlers.
End Routes.

(* ===================================================================== *)
(** ** The task entity and its store *)
(* ===================================================================== *)

(** The Task entity, whose schema ([entities/task.js]) and repository
    ([dataSource.js]) the routes import. *)
Module Task.

(** Modelled from the spec: the Task entity schema ([entities/task.js],
    section 3 of the specification): [id] integer, auto-generated, unique,
    primary key; [title] and [description] text, required; [dueDate]
    timestamp, optional; [isFinished] boolean, false by default.  A column
    holds a JSON value as the store hands it back: the text and boolean
    columns the value they were given, [dueDate] the timestamp in the
    store's formatting, or [null]. *)
Record t : Type := mk {
  id : Z;
  title : value;
  description : value;
  dueDate : value;
  isFinished : value
}.

(** The entity as the repository hands it to the handlers. *)
Definition to_value (task : t) : value :=
  obj [
    ("id", VNum (id task));
    ("title", title task);
    ("description", description task);
    ("dueDate", dueDate task);
    ("isFinished", isFinished task)
  ].
End Task.

(** The repository of [dataSource.js] over the Task schema, after
    section 4.2 of the specification. *)
Module TaskStore.

(** Modelled from the spec: the relational store behind the repository
    ([dataSource.js]): the rows of the one table, in insertion order, the
    next id the store will assign, and the store's default timestamp
    formatting: what it hands back for a due date it was given.  The spec
    names that formatting and does not define it, so each store carries
    its own. *)
Record Store : Type := mkStore {
  rows : list Task.t;
  next_id : Z;
  timestamp : value -> value
}.

(** A store with no task yet. *)
Definition fresh (format : value -> value) : Store :=
  {| rows := []; next_id := 1; timestamp := format |}.

(** A timestamp formatting after the example of the Task schema's
    annotation in [routes/main.js] ([dueDate: 2024-02-28T03:00:00.000Z]):
    a date written without a time of day reads back as midnight UTC,
    anything else as it was written. *)
Definition iso_timestamp (v : value) : value :=
  match v with
  | VStr s =>
      if (String.length s =? 10)%nat
      then VStr (String.append s "T00:00:00.000Z")
      else VStr s
  | _ => v
  end.

Definition empty : Store := fresh iso_timestamp.

Definition ids (s : Store) : list Z := Task.id <$> rows s.

(** A property of a record or criteria object, [undefined] when there
    is none. *)
Definition field (v : value) (k : string) : value :=
  match v with
  | VObj props => default VUndefined (props !! k)
  | _ => VUndefined
  end.

(** The integer a criteria value denotes: a number, or the decimal
    numeral a path segment spells. *)
Definition id_of_value (v : value) : option Z :=
  match v with
  | VNum n => Some n
  | VStr s => Z.of_int <$> NilZero.int_of_string s
  | _ => None
  end.

(** The row matches the criteria [{ id: v }]. *)
Definition matches (criteria : value) (task : Task.t) : bool :=
  bool_decide (id_of_value (field criteria "id") = Some (Task.id task)).

(** A required column is present when it is neither [undefined] nor
    [null]. *)
Definition present (v : value) : bool :=
  match v with
  | VUndefined | VNull => false
  | _ => true
  end.

(** A supplied field replaces the old value; [undefined] leaves it. *)
Definition supplied_or (v old : value) : value :=
  match v with
  | VUndefined => old
  | _ => v
  end.

Definition not_null_violation (column : string) : value :=
  obj [("name", VStr "QueryFailedError");
       ("constraint", VStr "NOT NULL");
       ("column", VStr column)].

Definition unique_violation (column : string) : value :=
  obj [("name", VStr "QueryFailedError");
       ("constraint", VStr "UNIQUE");
       ("column", VStr column)].

(** Modelled from the spec: [find()] of the repository of [dataSource.js],
    the sequence of all tasks. *)
Definition find : M Store value :=
  fun s => (Returned (VArr (Task.to_value <$> rows s)), s).

(** Modelled from the spec: [findOne({ where: criteria })] of the
    repository of [dataSource.js], a single task (the first matching) or
    the not-found sentinel [null]. *)
Definition findOne (options : value) : M Store value :=
  fun s =>
    match List.find (matches (field options "where")) (rows s) with
    | Some task => (Returned (Task.to_value task), s)
    | None => (Returned VNull, s)
    end.

(** Modelled from the spec: [create(fields)] of the repository of
    [dataSource.js], which builds an in-memory record, not yet persisted. *)
Definition create (fields : value) : M Store value :=
  fun s => (Returned fields, s).

(** Modelled from the spec: the [dueDate] column of a record being
    saved: the timestamp in the store's formatting, [null] when the record
    has none (the column is optional). *)
Definition to_timestamp (s : Store) (v : value) : value :=
  match v with
  | VUndefined | VNull => VNull
  | _ => timestamp s v
  end.

(** Modelled from the spec: [save(record)] of the repository of
    [dataSource.js], which persists the record and returns it with the id
    the store assigned; [title] and [description] must be present at
    creation, [dueDate] is an optional timestamp and [isFinished] is false
    by default. *)
Definition save (record : value) : M Store value :=
  fun s =>
    if negb (present (field record "title")) then
      (Thrown (not_null_violation "title"), s)
    else if negb (present (field record "description")) then
      (Thrown (not_null_violation "description"), s)
    else
      let task := {|
        Task.id := next_id s;
        Task.title := field record "title";
        Task.description := field record "description";
        Task.dueDate := to_timestamp s (field record "dueDate");
        Task.isFinished := supplied_or (field record "isFinished") (VBool false)
      |} in
      (Returned (Task.to_value task),
       {| rows := rows s ++ [task];
          next_id := next_id s + 1;
          timestamp := timestamp s |}).

(** Modelled from the spec: the partial fields of an update applied to
    one row; a field left [undefined] is not supplied. *)
Definition apply_partial (partial : value) (task : Task.t) : Task.t :=
  {| Task.id := match field partial "id" with
                | VNum n => n
                | _ => Task.id task
                end;
     Task.title := supplied_or (field partial "title") (Task.title task);
     Task.description :=
       supplied_or (field partial "description") (Task.description task);
     Task.dueDate := supplied_or (field partial "dueDate") (Task.dueDate task);
     Task.isFinished :=
       supplied_or (field partial "isFinished") (Task.isFinished task) |}.

(** The affected-row count of an operation on the rows matching. *)
Definition affected (criteria : value) (s : Store) : Z :=
  Z.of_nat (length (filter (fun task => matches criteria task = true) (rows s))).

(** Modelled from the spec: [update(criteria, partial)] of the repository
    of [dataSource.js], which applies the partial fields to the rows
    matching and returns the affected-row count; the primary key stays
    unique. *)
Definition update (criteria partial : value) : M Store value :=
  fun s =>
    let rows' :=
      (fun task =>
         if matches criteria task then apply_partial partial task
         else task) <$> rows s in
    if bool_decide (NoDup (Task.id <$> rows')) then
      (Returned (obj [("affected", VNum (affected criteria s))]),
       {| rows := rows'; next_id := next_id s; timestamp := timestamp s |})
    else
      (Thrown (unique_violation "id"), s).

(** Modelled from the spec: [delete(criteria)] of the repository of
    [dataSource.js], which removes the rows matching and returns the
    affected-row count. *)
Definition delete (criteria : value) : M Store value :=
  fun s =>
    (Returned (obj [("affected", VNum (affected criteria s))]),
     {| rows := filter (fun task => matches criteria task = false) (rows s);
        next_id := next_id s;
        timestamp := timestamp s |}).

(** Modelled from the spec: [dataSource.getRepository(Task)], the
    repository the routes call. *)
Definition repository : Repository Store :=
  mkRepository Store find findOne create save update delete.

(** The store is well formed: no two rows share an id, and every id in
    use is below the next one the store assigns. *)
Definition wf (s : Store) : Prop :=
  NoDup (ids s) /\ Forall (fun i => i < next_id s) (ids s).

(** The stores the API can reach from one with no task yet. *)
Inductive reachable : Store -> Prop :=
| reachable_empty format : reachable (fresh format)
| reachable_serve s r req :
    reachable s ->
    reachable (Routes.store_after repository r req s).


End TaskStore.

(** A repository whose store cannot be reached: every operation rejects
    with the connection error. *)
Module Offline.

Definition connection_error : value :=
  obj [("code", VStr "ECONNREFUSED")].

Definition refuse {A} : M unit A := throw connection_error.

Definition repository : Repository unit :=
  mkRepository unit refuse (fun _ => refuse) (fun _ => refuse)
    (fun _ => refuse) (fun _ _ => refuse) (fun _ => refuse).

End Offline.

(** A stubbed repository, as a test double with no return values set up:
    every operation resolves to [undefined]. *)
Module Stub.

Definition resolve {A} (a : A) : M unit A := ret a.

Definition repository : Repository unit :=
  mkRepository unit (resolve VUndefined) (fun _ => resolve VUndefined)
    (fun _ => resolve VUndefined) (fun _ => resolve VUndefined)
    (fun _ _ => resolve VUndefined) (fun _ => resolve VUndefined).

End Stub.

(** The value a request body supplies for a field, if it supplies one. *)
Definition supplied (b : value) (k : string) : option value :=
  match TaskStore.field b k with
  | VUndefined => None
  | v => Some v
  end.

(** The spec's end-to-end example: the "Workout" task, posted to the empty
    store. *)
Module Sample.

Definition workout : value :=
  obj [("title", VStr "Workout"); ("description", VStr "jumping jacks")].

(** The same post with an [id] and an [isFinished] of the client's. *)
Definition workout_finished : value :=
  obj [("title", VStr "Workout"); ("description", VStr "jumping jacks");
       ("id", VNum 7); ("isFinished", VBool true)].


Definition task : Task.t :=
  {| Task.id := 1;
     Task.title := VStr "Workout";
     Task.description := VStr "jumping jacks";
     Task.dueDate := VNull;
     Task.isFinished := VBool false |}.

Definition store : TaskStore.Store :=
  {| TaskStore.rows := [task];
     TaskStore.next_id := 2;
     TaskStore.timestamp := TaskStore.iso_timestamp |}.

End Sample.

(* ===================================================================== *)
(** ** The handlers, for every repository *)
(* ===================================================================== *)

Import Routes.

(** Unfold a served request down to the repository calls. *)
Ltac unfold_handler :=
  unfold responses, store_after, serve, router,
    route_root_get, route_root_post, route_id_get, route_id_patch,
    route_id_delete, try_catch, bind, await, lift_outcome,
    res_status, res_json, fresh_response;
  cbn [store res sent statusCode fst snd].

(** Split on the next thing the handler scrutinises. *)
Ltac step_handler :=
  match goal with
  | H : ?x = _ |- context [match ?x with _ => _ end] => rewrite H
  | |- context [match ?x with _ => _ end] =>
      lazymatch x with
      | context [match _ with _ => _ end] => fail
      | _ => destruct x eqn:?
      end
  end;
  cbn [store res sent statusCode fst snd app].

Section AnyRepository.

Context {St : Type} (repository : Repository St).

Lemma strict_eq_num_zero (v : value) :
  strict_eq_num v 0 = true <-> v = VNum 0.
Proof.
  destruct v; cbn; try (split; [discriminate | intros [=]]).
  rewrite Z.eqb_eq. split; [intros -> | intros [= ->]]; reflexivity.
Qed.

(** C1 (as the code has it): when [delete] reports an affected count of
    0, DELETE /:id answers 404 with the body ["Task not found"], the
    wording of GET and PATCH, and not ["The task was not found"]; when
    it reports any other count it answers 200 with
    ["Task deleted successfully"]. *)
Theorem delete_reply (req : Request) (s s' : St) (result affected : value) :
  delete repository (obj [("id", VStr (params_id req))]) s
    = (Returned result, s') ->
  get_prop result "affected" = Returned affected ->
  (affected = VNum 0 ->
     responses repository DELETE_id req s = [(404, VStr "Task not found")]
     /\ responses repository DELETE_id req s
        <> [(404, VStr "The task was not found")])
  /\ (affected <> VNum 0 ->
     responses repository DELETE_id req s
       = [(200, VStr "Task deleted successfully")]).
Proof.
  intros Hdel Haff. unfold_handler. rewrite Hdel, Haff.
  cbn [store res sent statusCode fst snd app]. split.
  - intros ->. cbn. split; [reflexivity | discriminate].
  - intros Hne. destruct (strict_eq_num affected 0) eqn:Hz.
    + apply strict_eq_num_zero in Hz. contradiction.
    + reflexivity.
Qed.

(** C4: GET /:id answers 404 ["Task not found"], and nothing else, when
    [findOne] gives a falsy result; otherwise it answers 200 with the
    task found. *)
Theorem get_by_id_reply (req : Request) (s s' : St) (task : value) :
  findOne repository (obj [("where", obj [("id", VStr (params_id req))])]) s
    = (Returned task, s') ->
  (truthy task = false ->
     responses repository GET_id req s = [(404, VStr "Task not found")])
  /\ (truthy task = true ->
     responses repository GET_id req s = [(200, task)]).
Proof.
  intros Hfind. unfold_handler. rewrite Hfind.
  split; intros ->; reflexivity.
Qed.

(** C5: when [update] reports an affected count of 0, PATCH /:id
    answers 404 ["Task not found"]; when it reports any other count it
    answers 200 ["Task updated successfully"]. *)
Theorem patch_reply (req : Request) (s s' : St)
    (title description dueDate isFinished result affected : value) :
  get_prop (body req) "title" = Returned title ->
  get_prop (body req) "description" = Returned description ->
  get_prop (body req) "dueDate" = Returned dueDate ->
  get_prop (body req) "isFinished" = Returned isFinished ->
  update repository
    (obj [("id", VStr (params_id req))])
    (obj [("title", title); ("description", description);
          ("dueDate", dueDate); ("isFinished", isFinished)]) s
    = (Returned result, s') ->
  get_prop result "affected" = Returned affected ->
  (affected = VNum 0 ->
     responses repository PATCH_id req s = [(404, VStr "Task not found")])
  /\ (affected <> VNum 0 ->
     responses repository PATCH_id req s
       = [(200, VStr "Task updated successfully")]).
Proof.
  intros Ht Hd Hdd Hf Hupd Haff. unfold_handler.
  rewrite Ht, Hd, Hdd, Hf, Hupd, Haff.
  cbn [store res sent statusCode fst snd app]. split.
  - intros ->. reflexivity.
  - intros Hne. destruct (strict_eq_num affected 0) eqn:Hz.
    + apply strict_eq_num_zero in Hz. contradiction.
    + reflexivity.
Qed.

(** C3: no handler lets an exception escape, and whatever error an
    awaited repository operation throws, the handler answers 500 with
    that very error as the body. *)
Theorem store_error_gives_500 (r : Route) (req : Request) (s : St) :
  fst (serve repository r req s) = Returned tt
  /\ (forall e : value,
        awaited_throws repository r req s e ->
        responses repository r req s = [(500, e)]).
Proof.
  split.
  - destruct r; unfold_handler; repeat step_handler; reflexivity.
  - intros e H. destruct H; unfold_handler;
      repeat (match goal with
              | H : ?x = _ |- context [?x] => rewrite H
              end;
              cbn [store res sent statusCode fst snd app]);
      reflexivity.
Qed.

(** C10: every handler sends exactly one response per request, under
    one of the statuses 200, 404 and 500; the routes without an id
    never answer 404. *)
Theorem exactly_one_response (r : Route) (req : Request) (s : St) :
  exists (code : Z) (payload : value),
    responses repository r req s = [(code, payload)]
    /\ (code = 200 \/ code = 404 \/ code = 500)
    /\ (code = 404 -> r = GET_id \/ r = PATCH_id \/ r = DELETE_id).
Proof.
  destruct r; unfold_handler; repeat step_handler;
    eexists _, _; (split; [reflexivity | split; [| intros [=]; auto]]);
    auto.
Qed.

End AnyRepository.

(* ===================================================================== *)
(** ** The handlers over the task store *)
(* ===================================================================== *)

Section OverTaskStore.

(** *** Path ids and criteria *)


Lemma matches_id (v : value) (task : Task.t) :
  TaskStore.matches (obj [("id", v)]) task
  = bool_decide (TaskStore.id_of_value v = Some (Task.id task)).
Proof. reflexivity. Qed.

Lemma matches_path (pid : string) (n : Z) (task : Task.t) :
  TaskStore.id_of_value (VStr pid) = Some n ->
  TaskStore.matches (obj [("id", VStr pid)]) task
  = bool_decide (Task.id task = n).
Proof.
  intros Hn. rewrite matches_id, Hn.
  apply bool_decide_ext. split; [intros [=] | intros ->]; done.
Qed.

(** *** Object literals of the handlers *)

(** The fields PATCH hands to [update] never carry an id. *)
Lemma apply_patch_fields (title description dueDate isFinished : value)
    (task : Task.t) :
  TaskStore.apply_partial
    (obj [("title", title); ("description", description);
          ("dueDate", dueDate); ("isFinished", isFinished)]) task
  = {| Task.id := Task.id task;
       Task.title := TaskStore.supplied_or title (Task.title task);
       Task.description :=
         TaskStore.supplied_or description (Task.description task);
       Task.dueDate := TaskStore.supplied_or dueDate (Task.dueDate task);
       Task.isFinished :=
         TaskStore.supplied_or isFinished (Task.isFinished task) |}.
Proof. reflexivity. Qed.

Lemma supplied_or_default (b : value) (k : string) (old : value) :
  TaskStore.supplied_or (TaskStore.field b k) old
  = default old (supplied b k).
Proof.
  unfold supplied. destruct (TaskStore.field b k); reflexivity.
Qed.

(** *** Rows *)

(** An update that keeps every id keeps the list of ids. *)
Lemma ids_fmap_keep (f : Task.t -> Task.t) (rows : list Task.t) :
  (forall task, Task.id (f task) = Task.id task) ->
  Task.id <$> (f <$> rows) = Task.id <$> rows.
Proof.
  intros Hf. rewrite <- list_fmap_compose.
  apply list_fmap_ext. intros _ task _. apply Hf.
Qed.


Lemma affected_positive (pid : string) (n : Z) (s : TaskStore.Store) :
  TaskStore.id_of_value (VStr pid) = Some n ->
  n ∈ TaskStore.ids s ->
  0 < TaskStore.affected (obj [("id", VStr pid)]) s.
Proof.
  intros Hn Hin. unfold TaskStore.affected.
  apply list_elem_of_fmap in Hin as (task & -> & Hin).
  assert (Hm : task ∈ filter
            (fun t => TaskStore.matches (obj [("id", VStr pid)]) t = true)
            (TaskStore.rows s)).
  { apply list_elem_of_filter. split; [| exact Hin].
    rewrite (matches_path pid (Task.id task)) by exact Hn.
    apply bool_decide_eq_true_2. reflexivity. }
  destruct (filter _ (TaskStore.rows s)); [inversion Hm | cbn; lia].
Qed.

(** *** What each handler does on the task store *)

Lemma get_prop_field (b : value) (k : string) :
  TaskStore.present b = true ->
  get_prop b k = Returned (TaskStore.field b k).
Proof. destruct b; cbn; try discriminate; reflexivity. Qed.

Lemma field_absent (b : value) (k : string) :
  TaskStore.present b = false -> TaskStore.field b k = VUndefined.
Proof. destruct b; cbn; try discriminate; reflexivity. Qed.

Section PostRecord.
Variables title description dueDate : value.

Lemma post_record_title :
  TaskStore.field
    (obj [("title", title); ("description", description);
          ("dueDate", dueDate)]) "title" = title.
Proof. reflexivity. Qed.

Lemma post_record_description :
  TaskStore.field
    (obj [("title", title); ("description", description);
          ("dueDate", dueDate)]) "description" = description.
Proof. reflexivity. Qed.

Lemma post_record_dueDate :
  TaskStore.field
    (obj [("title", title); ("description", description);
          ("dueDate", dueDate)]) "dueDate" = dueDate.
Proof. reflexivity. Qed.

Lemma post_record_isFinished :
  TaskStore.field
    (obj [("title", title); ("description", description);
          ("dueDate", dueDate)]) "isFinished" = VUndefined.
Proof. reflexivity. Qed.
End PostRecord.

Lemma served_get_root (req : Request) (s : TaskStore.Store) :
  serve TaskStore.repository GET_root req s
  = (Returned tt,
     {| store := s;
        res := {| statusCode := 200;
                  sent := [(200, VArr (Task.to_value <$> TaskStore.rows s))] |} |}).
Proof. reflexivity. Qed.

Lemma served_get_id (req : Request) (s : TaskStore.Store) :
  serve TaskStore.repository GET_id req s
  = (Returned tt,
     {| store := s;
        res := match List.find
                       (TaskStore.matches (obj [("id", VStr (params_id req))]))
                       (TaskStore.rows s) with
               | Some task =>
                   {| statusCode := 200;
                      sent := [(200, Task.to_value task)] |}
               | None =>
                   {| statusCode := 404;
                      sent := [(404, VStr "Task not found")] |}
               end |}).
Proof.
  unfold_handler. unfold findOne, TaskStore.repository, TaskStore.findOne.
  change (TaskStore.field (obj [("where", ?c)]) "where") with c.
  destruct (List.find _ (TaskStore.rows s)); reflexivity.
Qed.

(** The task [save] makes of what was posted. *)
Lemma served_post (req : Request) (s : TaskStore.Store) :
  TaskStore.present (TaskStore.field (body req) "title") = true ->
  TaskStore.present (TaskStore.field (body req) "description") = true ->
  let task :=
    {| Task.id := TaskStore.next_id s;
       Task.title := TaskStore.field (body req) "title";
       Task.description := TaskStore.field (body req) "description";
       Task.dueDate :=
         TaskStore.to_timestamp s (TaskStore.field (body req) "dueDate");
       Task.isFinished := VBool false |} in
  serve TaskStore.repository POST_root req s
  = (Returned tt,
     {| store := {| TaskStore.rows := TaskStore.rows s ++ [task];
                    TaskStore.next_id := TaskStore.next_id s + 1;
                    TaskStore.timestamp := TaskStore.timestamp s |};
        res := {| statusCode := 200;
                  sent := [(200, Task.to_value task)] |} |}).
Proof.
  intros Ht Hd.
  assert (Hb : TaskStore.present (body req) = true).
  { destruct (TaskStore.present (body req)) eqn:Hb; [reflexivity |].
    rewrite (field_absent _ _ Hb) in Ht. discriminate. }
  unfold_handler. rewrite !(get_prop_field _ _ Hb).
  unfold create, save, TaskStore.repository, TaskStore.create, TaskStore.save.
  cbn [store res sent statusCode fst snd app].
  rewrite post_record_title, post_record_description, post_record_dueDate,
    post_record_isFinished, Ht, Hd.
  cbn [negb store res sent statusCode fst snd app TaskStore.supplied_or].
  reflexivity.
Qed.

(** A post the store rejects, or that has no body to read, changes
    nothing. *)
Lemma served_post_rejected (req : Request) (s : TaskStore.Store) :
  TaskStore.present (TaskStore.field (body req) "title")
    && TaskStore.present (TaskStore.field (body req) "description") = false ->
  exists e : value,
    serve TaskStore.repository POST_root req s
    = (Returned tt,
       {| store := s;
          res := {| statusCode := 500; sent := [(500, e)] |} |}).
Proof.
  intros Hrej.
  destruct (TaskStore.present (body req)) eqn:Hb.
  - unfold_handler. rewrite !(get_prop_field _ _ Hb).
    unfold create, save, TaskStore.repository, TaskStore.create, TaskStore.save.
    cbn [store res sent statusCode fst snd app].
    rewrite post_record_title, post_record_description.
    destruct (TaskStore.present (TaskStore.field (body req) "title"));
      [destruct (TaskStore.present (TaskStore.field (body req) "description"));
         [discriminate |] |]; eexists; reflexivity.
  - unfold_handler.
    destruct (body req); try discriminate; eexists; reflexivity.
Qed.


(** One row after PATCH: the supplied fields take the supplied values. *)
Lemma patched_row (b : value) (task : Task.t) :
  TaskStore.apply_partial
    (obj [("title", TaskStore.field b "title");
          ("description", TaskStore.field b "description");
          ("dueDate", TaskStore.field b "dueDate");
          ("isFinished", TaskStore.field b "isFinished")]) task
  = {| Task.id := Task.id task;
       Task.title := default (Task.title task) (supplied b "title");
       Task.description :=
         default (Task.description task) (supplied b "description");
       Task.dueDate := default (Task.dueDate task) (supplied b "dueDate");
       Task.isFinished :=
         default (Task.isFinished task) (supplied b "isFinished") |}.
Proof. rewrite apply_patch_fields, !supplied_or_default. reflexivity. Qed.

Lemma served_patch (req : Request) (s : TaskStore.Store) :
  TaskStore.present (body req) = true ->
  NoDup (TaskStore.ids s) ->
  serve TaskStore.repository PATCH_id req s
  = (Returned tt,
     {| store :=
          {| TaskStore.rows :=
               (fun task =>
                  if TaskStore.matches (obj [("id", VStr (params_id req))]) task
                  then
                    {| Task.id := Task.id task;
                       Task.title :=
                         default (Task.title task)
                           (supplied (body req) "title");
                       Task.description :=
                         default (Task.description task)
                           (supplied (body req) "description");
                       Task.dueDate :=
                         default (Task.dueDate task)
                           (supplied (body req) "dueDate");
                       Task.isFinished :=
                         default (Task.isFinished task)
                           (supplied (body req) "isFinished") |}
                  else task) <$> TaskStore.rows s;
             TaskStore.next_id := TaskStore.next_id s;
             TaskStore.timestamp := TaskStore.timestamp s |};
        res :=
          if TaskStore.affected (obj [("id", VStr (params_id req))]) s =? 0
          then {| statusCode := 404;
                  sent := [(404, VStr "Task not found")] |}
          else {| statusCode := 200;
                  sent := [(200, VStr "Task updated successfully")] |} |}).
Proof.
  intros Hb Hnodup.
  unfold_handler. rewrite !(get_prop_field _ _ Hb).
  unfold update, TaskStore.repository, TaskStore.update.
  cbn [store res sent statusCode fst snd app].
  erewrite (list_fmap_ext _ _ (TaskStore.rows s)); cycle 1.
  { intros _ task _. rewrite patched_row. reflexivity. }
  rewrite bool_decide_eq_true_2; cycle 1.
  { rewrite ids_fmap_keep; [exact Hnodup |].
    intros task. destruct (TaskStore.matches _ task); reflexivity. }
  cbn [store res sent statusCode fst snd app].
  change (get_prop (obj [("affected", VNum ?k)]) "affected")
    with (Returned (VNum k)).
  cbn [strict_eq_num].
  destruct (TaskStore.affected _ s =? 0); reflexivity.
Qed.

(** PATCH with no body to read: the property read throws. *)
Lemma served_patch_no_body (req : Request) (s : TaskStore.Store) :
  TaskStore.present (body req) = false ->
  serve TaskStore.repository PATCH_id req s
  = (Returned tt,
     {| store := s;
        res := {| statusCode := 500;
                  sent := [(500, type_error "title")] |} |}).
Proof.
  intros Hb. unfold_handler.
  destruct (body req); try discriminate; reflexivity.
Qed.

Lemma served_delete (req : Request) (s : TaskStore.Store) :
  serve TaskStore.repository DELETE_id req s
  = (Returned tt,
     {| store :=
          {| TaskStore.rows :=
               filter
                 (fun task =>
                    TaskStore.matches (obj [("id", VStr (params_id req))]) task
                    = false) (TaskStore.rows s);
             TaskStore.next_id := TaskStore.next_id s;
             TaskStore.timestamp := TaskStore.timestamp s |};
        res :=
          if TaskStore.affected (obj [("id", VStr (params_id req))]) s =? 0
          then {| statusCode := 404;
                  sent := [(404, VStr "Task not found")] |}
          else {| statusCode := 200;
                  sent := [(200, VStr "Task deleted successfully")] |} |}).
Proof.
  unfold_handler.
  unfold delete, TaskStore.repository, TaskStore.delete.
  cbn [store res sent statusCode fst snd app].
  change (get_prop (obj [("affected", VNum ?k)]) "affected")
    with (Returned (VNum k)).
  cbn [strict_eq_num].
  destruct (TaskStore.affected _ s =? 0); reflexivity.
Qed.

(** The properties of a task as the handlers send it. *)
Lemma to_value_props (task : Task.t) :
  get_prop (Task.to_value task) "id" = Returned (VNum (Task.id task))
  /\ get_prop (Task.to_value task) "title" = Returned (Task.title task)
  /\ get_prop (Task.to_value task) "description"
     = Returned (Task.description task)
  /\ get_prop (Task.to_value task) "dueDate" = Returned (Task.dueDate task)
  /\ get_prop (Task.to_value task) "isFinished"
     = Returned (Task.isFinished task).
Proof. repeat split. Qed.

(** *** The store stays well formed *)

Lemma store_after_get_root (req : Request) (s : TaskStore.Store) :
  store_after TaskStore.repository GET_root req s = s.
Proof. reflexivity. Qed.

Lemma store_after_get_id (req : Request) (s : TaskStore.Store) :
  store_after TaskStore.repository GET_id req s = s.
Proof. unfold store_after. rewrite served_get_id. reflexivity. Qed.

Lemma store_after_post (req : Request) (s : TaskStore.Store) :
  store_after TaskStore.repository POST_root req s = s
  \/ exists task : Task.t,
       store_after TaskStore.repository POST_root req s
       = {| TaskStore.rows := TaskStore.rows s ++ [task];
            TaskStore.next_id := TaskStore.next_id s + 1;
            TaskStore.timestamp := TaskStore.timestamp s |}
       /\ responses TaskStore.repository POST_root req s
          = [(200, Task.to_value task)]
       /\ Task.id task = TaskStore.next_id s
       /\ Task.isFinished task = VBool false.
Proof.
  unfold store_after, responses.
  destruct (TaskStore.present (TaskStore.field (body req) "title")
            && TaskStore.present (TaskStore.field (body req) "description"))
    eqn:Hp.
  - apply andb_true_iff in Hp as [Ht Hd]. right.
    rewrite (served_post req s Ht Hd). eexists. repeat split.
  - left. destruct (served_post_rejected req s Hp) as [e ->]. reflexivity.
Qed.

Lemma ids_after_patch (req : Request) (s : TaskStore.Store) :
  NoDup (TaskStore.ids s) ->
  TaskStore.ids (store_after TaskStore.repository PATCH_id req s)
    = TaskStore.ids s
  /\ TaskStore.next_id (store_after TaskStore.repository PATCH_id req s)
     = TaskStore.next_id s.
Proof.
  intros Hnodup. unfold store_after.
  destruct (TaskStore.present (body req)) eqn:Hb.
  - rewrite (served_patch req s Hb Hnodup). split; [| reflexivity].
    apply ids_fmap_keep.
    intros task. destruct (TaskStore.matches _ task); reflexivity.
  - rewrite (served_patch_no_body req s Hb). split; reflexivity.
Qed.

Lemma rows_after_delete (req : Request) (s : TaskStore.Store) :
  sublist (TaskStore.rows (store_after TaskStore.repository DELETE_id req s))
    (TaskStore.rows s)
  /\ TaskStore.next_id (store_after TaskStore.repository DELETE_id req s)
     = TaskStore.next_id s.
Proof.
  unfold store_after. rewrite served_delete. split; [| reflexivity].
  apply sublist_filter.
Qed.

Lemma wf_fresh (format : value -> value) :
  TaskStore.wf (TaskStore.fresh format).
Proof. split; [apply NoDup_nil_2 | apply Forall_nil_2]. Qed.


Lemma wf_served (r : Route) (req : Request) (s : TaskStore.Store) :
  TaskStore.wf s ->
  TaskStore.wf (store_after TaskStore.repository r req s).
Proof.
  intros [Hnodup Hbelow]. destruct r.
  - rewrite store_after_get_root. split; assumption.
  - destruct (store_after_post req s) as [-> | (task & -> & _ & Hid & _)];
      [split; assumption |].
    unfold TaskStore.wf, TaskStore.ids in *. cbn.
    rewrite fmap_app. cbn. rewrite Hid. split.
    + apply NoDup_app. split; [exact Hnodup |]. split; [| apply NoDup_singleton].
      intros i Hi Hin. apply list_elem_of_singleton in Hin. subst i.
      rewrite Forall_forall in Hbelow. specialize (Hbelow _ Hi). lia.
    + apply Forall_app. split.
      * eapply Forall_impl; [exact Hbelow |]. cbn. intros i Hi. lia.
      * apply Forall_singleton. lia.
  - rewrite store_after_get_id. split; assumption.
  - destruct (ids_after_patch req s Hnodup) as [Hids Hnext].
    unfold TaskStore.wf. rewrite Hids, Hnext. split; assumption.
  - destruct (rows_after_delete req s) as [Hsub Hnext].
    assert (Hids : sublist
              (TaskStore.ids (store_after TaskStore.repository DELETE_id req s))
              (TaskStore.ids s)).
    { unfold TaskStore.ids. apply fmap_sublist. exact Hsub. }
    unfold TaskStore.wf. rewrite Hnext. split.
    + eapply sublist_NoDup; eassumption.
    + rewrite Forall_forall in *. intros i Hi. apply Hbelow.
      eapply sublist_subseteq; eassumption.
Qed.

Lemma wf_reachable (s : TaskStore.Store) :
  TaskStore.reachable s -> TaskStore.wf s.
Proof.
  induction 1 as [format | s r req _ IH];
    [apply wf_fresh | apply wf_served, IH].
Qed.

End OverTaskStore.

(* ===================================================================== *)
(** ** The CRUD contract on the task store *)
(* ===================================================================== *)

(** C2: PATCH /:id on an existing task answers 200
    ["Task updated successfully"]; in the row with that id every field
    the body supplies takes the supplied value and every other field
    keeps its value, and every other row is left as it was. *)
Theorem patch_changes_only_supplied_fields
    (s : TaskStore.Store) (req : Request) (props : gmap string value) (n : Z) :
  TaskStore.wf s ->
  body req = VObj props ->
  TaskStore.id_of_value (VStr (params_id req)) = Some n ->
  n ∈ TaskStore.ids s ->
  let s' := store_after TaskStore.repository PATCH_id req s in
  responses TaskStore.repository PATCH_id req s
    = [(200, VStr "Task updated successfully")]
  /\ length (TaskStore.rows s') = length (TaskStore.rows s)
  /\ forall (i : nat) (task : Task.t),
       TaskStore.rows s !! i = Some task ->
       exists task' : Task.t,
         TaskStore.rows s' !! i = Some task'
         /\ Task.id task' = Task.id task
         /\ (Task.id task <> n -> task' = task)
         /\ (Task.id task = n ->
             Task.title task'
               = default (Task.title task) (supplied (body req) "title")
             /\ Task.description task'
               = default (Task.description task)
                   (supplied (body req) "description")
             /\ Task.dueDate task'
               = default (Task.dueDate task) (supplied (body req) "dueDate")
             /\ Task.isFinished task'
               = default (Task.isFinished task)
                   (supplied (body req) "isFinished")).
Proof.
  intros [Hnodup _] Hbody Hn Hin s'.
  assert (Hb : TaskStore.present (body req) = true) by (rewrite Hbody; reflexivity).
  subst s'. unfold responses, store_after.
  rewrite (served_patch req s Hb Hnodup). cbn [snd store res TaskStore.rows].
  pose proof (affected_positive _ _ s Hn Hin) as Hpos.
  split; [| split].
  - destruct (Z.eqb_spec (TaskStore.affected (obj [("id", VStr (params_id req))]) s) 0);
      [lia | reflexivity].
  - apply length_fmap.
  - intros i task Hi. rewrite list_lookup_fmap, Hi. cbn [fmap option_fmap option_map].
    rewrite (matches_path _ n) by exact Hn.
    eexists. split; [reflexivity |].
    case_bool_decide as Hid.
    + split; [reflexivity |]. split; [intros Hne; contradiction |].
      intros _. repeat split.
    + split; [reflexivity |]. split; [reflexivity |].
      intros Heq. contradiction.
Qed.



(** C8: in every store the API can reach no two tasks share an id, and no
    request changes the id of a stored task: served from a well-formed
    store, every request leaves a well-formed store; the two GETs leave
    the store as it is, PATCH leaves the ids of all rows as they are
    whatever the body holds, DELETE only removes rows, and POST only
    appends one row under an id no row has. *)
Theorem ids_unique_and_immutable :
  (forall s : TaskStore.Store,
      TaskStore.reachable s -> NoDup (TaskStore.ids s))
  /\ (forall (s : TaskStore.Store) (r : Route) (req : Request),
      TaskStore.wf s ->
      let s' := store_after TaskStore.repository r req s in
      TaskStore.wf s'
      /\ match r with
         | GET_root | GET_id => s' = s
         | PATCH_id => TaskStore.ids s' = TaskStore.ids s
         | DELETE_id => sublist (TaskStore.rows s') (TaskStore.rows s)
         | POST_root =>
             s' = s
             \/ exists task : Task.t,
                  TaskStore.rows s' = TaskStore.rows s ++ [task]
                  /\ Task.id task ∉ TaskStore.ids s
         end).
Proof.
  split.
  { intros s Hreach. apply (wf_reachable s Hreach). }
  intros s r req Hwf s'. split.
  { apply (wf_served r req s Hwf). }
  subst s'. destruct r.
  - apply store_after_get_root.
  - destruct (store_after_post req s) as [-> | (task & -> & _ & Hid & _)];
      [left; reflexivity | right].
    exists task. split; [reflexivity |].
    destruct Hwf as [_ Hbelow]. rewrite Forall_forall in Hbelow.
    intros Hin. specialize (Hbelow _ Hin). lia.
  - apply store_after_get_id.
  - apply ids_after_patch, Hwf.
  - apply rows_after_delete.
Qed.

(** C9: POST / builds the record from the body's [title], [description]
    and [dueDate] and from nothing else.  For every repository, two
    bodies that agree on these three are served alike, whatever else (an
    [id], an [isFinished]) they hold, and the record handed to [create]
    is the object of these three, whose saved form is what the reply
    carries.  On the task store, a post with a title and a description
    creates one task, under the id the store assigns and with
    [isFinished = false], whatever the body holds; any other post creates
    nothing and is answered 500. *)
Theorem post_ignores_id_and_isFinished :
  (forall (St : Type) (repository : Repository St) (req req' : Request) (s : St),
      get_prop (body req) "title" = get_prop (body req') "title" ->
      get_prop (body req) "description" = get_prop (body req') "description" ->
      get_prop (body req) "dueDate" = get_prop (body req') "dueDate" ->
      serve repository POST_root req s = serve repository POST_root req' s)
  /\ (forall (St : Type) (repository : Repository St) (req : Request)
             (s s1 s2 : St) (title description dueDate record task : value),
      get_prop (body req) "title" = Returned title ->
      get_prop (body req) "description" = Returned description ->
      get_prop (body req) "dueDate" = Returned dueDate ->
      create repository
        (obj [("title", title); ("description", description);
              ("dueDate", dueDate)]) s = (Returned record, s1) ->
      save repository record s1 = (Returned task, s2) ->
      responses repository POST_root req s = [(200, task)]
      /\ store_after repository POST_root req s = s2)
  /\ (forall (req : Request) (s : TaskStore.Store),
      TaskStore.present (TaskStore.field (body req) "title") = true ->
      TaskStore.present (TaskStore.field (body req) "description") = true ->
      exists (task : Task.t) (posted : value),
        responses TaskStore.repository POST_root req s = [(200, posted)]
        /\ posted = Task.to_value task
        /\ TaskStore.rows (store_after TaskStore.repository POST_root req s)
           = TaskStore.rows s ++ [task]
        /\ get_prop posted "id" = Returned (VNum (TaskStore.next_id s))
        /\ get_prop posted "title"
           = Returned (TaskStore.field (body req) "title")
        /\ get_prop posted "description"
           = Returned (TaskStore.field (body req) "description")
        /\ get_prop posted "dueDate"
           = Returned
               (TaskStore.to_timestamp s (TaskStore.field (body req) "dueDate"))
        /\ get_prop posted "isFinished" = Returned (VBool false))
  /\ (forall (req : Request) (s : TaskStore.Store),
      TaskStore.present (TaskStore.field (body req) "title")
        && TaskStore.present (TaskStore.field (body req) "description")
      = false ->
      store_after TaskStore.repository POST_root req s = s
      /\ exists e : value,
           responses TaskStore.repository POST_root req s = [(500, e)]).
Proof.
  split; [| split; [| split]].
  - intros St repository req req' s Ht Hd Hdd.
    unfold_handler. rewrite Ht, Hd, Hdd. reflexivity.
  - intros St repository req s s1 s2 title description dueDate record task
      Ht Hd Hdd Hcreate Hsave.
    unfold_handler. rewrite Ht, Hd, Hdd, Hcreate.
    cbn [store res sent statusCode fst snd app].
    rewrite Hsave. split; reflexivity.
  - intros req s Ht Hd.
    pose proof (served_post req s Ht Hd) as Hpost. cbn zeta in Hpost.
    unfold responses, store_after. rewrite Hpost.
    cbn [snd store res sent TaskStore.rows].
    eexists _, _. split; [reflexivity |]. split; [reflexivity |].
    split; [reflexivity |]. apply to_value_props.
  - intros req s Hrej. unfold responses, store_after.
    destruct (served_post_rejected req s Hrej) as [e ->].
    split; [reflexivity | exists e; reflexivity].
Qed.

(** C6: GET / answers 200 with exactly what [find()] returned, for every
    repository; on the task store that is, in every state, the array of
    the stored tasks, and the empty array when the store holds none. *)
Theorem get_all_reply :
  (forall (St : Type) (repository : Repository St) (req : Request)
          (s s' : St) (data : value),
      find repository s = (Returned data, s') ->
      responses repository GET_root req s = [(200, data)])
  /\ (forall (req : Request) (s : TaskStore.Store),
      responses TaskStore.repository GET_root req s
      = [(200, VArr (Task.to_value <$> TaskStore.rows s))])
  /\ (forall (req : Request) (s : TaskStore.Store),
      TaskStore.rows s = [] ->
      responses TaskStore.repository GET_root req s = [(200, VArr [])]).
Proof.
  split; [| split].
  - intros St repository req s s' data Hfind.
    unfold_handler. rewrite Hfind. reflexivity.
  - intros req s. reflexivity.
  - intros req s Hrows. unfold responses. rewrite served_get_root.
    cbn [snd res sent]. rewrite Hrows. reflexivity.
Qed.

(* ===================================================================== *)
(** ** The contract at the sample task *)
(* ===================================================================== *)

Lemma wf_sample : TaskStore.wf Sample.store.
Proof.
  split.
  - apply NoDup_singleton.
  - apply Forall_singleton. reflexivity.
Qed.

(** DELETE /1 on the empty store. *)
Lemma delete_reply_witness :
  delete TaskStore.repository (obj [("id", VStr "1")]) TaskStore.empty
    = (Returned (obj [("affected", VNum 0)]), TaskStore.empty)
  /\ responses TaskStore.repository DELETE_id (mkRequest "1" VUndefined)
       TaskStore.empty
     = [(404, VStr "Task not found")].
Proof.
  split; [reflexivity |].
  apply (delete_reply TaskStore.repository (mkRequest "1" VUndefined)
           TaskStore.empty TaskStore.empty
           (obj [("affected", VNum 0)]) (VNum 0));
    reflexivity.
Defined.

(** GET /1 on the sample store. *)
Lemma get_by_id_reply_witness :
  truthy (Task.to_value Sample.task) = true
  /\ responses TaskStore.repository GET_id (mkRequest "1" VUndefined)
       Sample.store
     = [(200, Task.to_value Sample.task)].
Proof.
  split; [reflexivity |].
  apply (get_by_id_reply TaskStore.repository (mkRequest "1" VUndefined)
           Sample.store Sample.store (Task.to_value Sample.task));
    reflexivity.
Defined.

(** PATCH /1 with [{ isFinished: true }] on the sample store. *)
Lemma patch_reply_witness :
  VNum 1 <> VNum 0
  /\ responses TaskStore.repository PATCH_id
       (mkRequest "1" (obj [("isFinished", VBool true)])) Sample.store
     = [(200, VStr "Task updated successfully")].
Proof.
  split; [discriminate |].
  apply (patch_reply TaskStore.repository
           (mkRequest "1" (obj [("isFinished", VBool true)]))
           Sample.store
           {| TaskStore.rows :=
                [{| Task.id := 1;
                    Task.title := VStr "Workout";
                    Task.description := VStr "jumping jacks";
                    Task.dueDate := VNull;
                    Task.isFinished := VBool true |}];
              TaskStore.next_id := 2;
              TaskStore.timestamp := TaskStore.iso_timestamp |}
           VUndefined VUndefined VUndefined (VBool true)
           (obj [("affected", VNum 1)]) (VNum 1));
    try reflexivity.
  discriminate.
Defined.

(** Every operation of the unreachable store rejects: each route answers
    500 with the connection error. *)
Lemma store_error_gives_500_witness :
  awaited_throws Offline.repository GET_id (mkRequest "1" VUndefined) tt
    Offline.connection_error
  /\ responses Offline.repository GET_id (mkRequest "1" VUndefined) tt
     = [(500, Offline.connection_error)].
Proof.
  assert (H : awaited_throws Offline.repository GET_id
                (mkRequest "1" VUndefined) tt Offline.connection_error).
  { apply (findOne_throws Offline.repository _ tt tt). reflexivity. }
  split; [exact H |].
  apply (store_error_gives_500 Offline.repository GET_id
           (mkRequest "1" VUndefined) tt).
  exact H.
Defined.

(** GET /7 on the sample store: the one response is the 404. *)
Lemma exactly_one_response_witness :
  exists (code : Z) (payload : value),
    responses TaskStore.repository GET_id (mkRequest "7" VUndefined)
      Sample.store = [(code, payload)]
    /\ (code = 200 \/ code = 404 \/ code = 500)
    /\ (code = 404 -> GET_id = GET_id \/ GET_id = PATCH_id \/ GET_id = DELETE_id).
Proof.
  exact (exactly_one_response TaskStore.repository GET_id
           (mkRequest "7" VUndefined) Sample.store).
Defined.

(** PATCH /1 with [{ isFinished: true }] on the sample store. *)
Lemma patch_changes_only_supplied_fields_witness :
  TaskStore.wf Sample.store
  /\ TaskStore.id_of_value (VStr "1") = Some 1
  /\ 1 ∈ TaskStore.ids Sample.store
  /\ responses TaskStore.repository PATCH_id
       (mkRequest "1" (obj [("isFinished", VBool true)])) Sample.store
     = [(200, VStr "Task updated successfully")].
Proof.
  assert (Hin : 1 ∈ TaskStore.ids Sample.store) by left.
  split; [exact wf_sample |]. split; [reflexivity |]. split; [exact Hin |].
  apply (patch_changes_only_supplied_fields Sample.store
           (mkRequest "1" (obj [("isFinished", VBool true)]))
           (list_to_map [("isFinished", VBool true)]) 1
           wf_sample eq_refl eq_refl Hin).
Defined.


(** The store after the sample post is reachable, so its ids are unique;
    a PATCH /1 on the sample store that carries an [id] of the client's
    leaves the ids as they are. *)
Lemma ids_unique_and_immutable_witness :
  TaskStore.reachable
    (store_after TaskStore.repository POST_root (mkRequest "" Sample.workout)
       TaskStore.empty)
  /\ NoDup
       (TaskStore.ids
          (store_after TaskStore.repository POST_root
             (mkRequest "" Sample.workout) TaskStore.empty))
  /\ TaskStore.wf Sample.store
  /\ TaskStore.ids
       (store_after TaskStore.repository PATCH_id
          (mkRequest "1" Sample.workout_finished) Sample.store)
     = TaskStore.ids Sample.store.
Proof.
  assert (H : TaskStore.reachable
                (store_after TaskStore.repository POST_root
                   (mkRequest "" Sample.workout) TaskStore.empty)).
  { apply TaskStore.reachable_serve, TaskStore.reachable_empty. }
  split; [exact H |].
  split; [apply (proj1 ids_unique_and_immutable _ H) |].
  split; [exact wf_sample |].
  apply (proj2 ids_unique_and_immutable Sample.store PATCH_id
           (mkRequest "1" Sample.workout_finished) wf_sample).
Defined.

(** The sample post, with and without an [id] and an [isFinished] of the
    client's, is served alike; the task created has the id the store
    assigns and [isFinished = false]. *)
Lemma post_ignores_id_and_isFinished_witness :
  get_prop Sample.workout_finished "title" = get_prop Sample.workout "title"
  /\ get_prop Sample.workout_finished "description"
     = get_prop Sample.workout "description"
  /\ get_prop Sample.workout_finished "dueDate"
     = get_prop Sample.workout "dueDate"
  /\ serve TaskStore.repository POST_root
       (mkRequest "" Sample.workout_finished) TaskStore.empty
     = serve TaskStore.repository POST_root
         (mkRequest "" Sample.workout) TaskStore.empty
  /\ TaskStore.present (TaskStore.field Sample.workout_finished "title") = true
  /\ TaskStore.present (TaskStore.field Sample.workout_finished "description")
     = true
  /\ exists posted : value,
       responses TaskStore.repository POST_root
         (mkRequest "" Sample.workout_finished) TaskStore.empty
       = [(200, posted)]
       /\ get_prop posted "id" = Returned (VNum 1)
       /\ get_prop posted "isFinished" = Returned (VBool false).
Proof.
  destruct post_ignores_id_and_isFinished as (Hsame & _ & Hcreated & _).
  split; [reflexivity |]. split; [reflexivity |]. split; [reflexivity |].
  split.
  { apply (Hsame TaskStore.Store TaskStore.repository
             (mkRequest "" Sample.workout_finished)
             (mkRequest "" Sample.workout) TaskStore.empty);
      reflexivity. }
  split; [reflexivity |]. split; [reflexivity |].
  destruct (Hcreated (mkRequest "" Sample.workout_finished) TaskStore.empty
              eq_refl eq_refl)
    as (task & posted & Hpost & _ & _ & Hid & _ & _ & _ & Hfin).
  exists posted. split; [exact Hpost |]. split; [exact Hid | exact Hfin].
Defined.

(** GET / on the empty store. *)
Lemma get_all_reply_witness :
  find TaskStore.repository TaskStore.empty
    = (Returned (VArr []), TaskStore.empty)
  /\ responses TaskStore.repository GET_root (mkRequest "" VUndefined)
       TaskStore.empty
     = [(200, VArr [])].
Proof.
  split; [reflexivity |].
  apply (proj1 get_all_reply TaskStore.Store TaskStore.repository
           (mkRequest "" VUndefined) TaskStore.empty TaskStore.empty (VArr [])).
  reflexivity.
Defined.

(** A session on the empty store: the sample post, then reads, an update
    and a removal. *)
Example sample_session :
  let posted :=
    store_after TaskStore.repository POST_root
      (mkRequest "" Sample.workout_finished) TaskStore.empty in
  let patched :=
    store_after TaskStore.repository PATCH_id
      (mkRequest "1" (obj [("isFinished", VBool true)])) posted in
  let deleted :=
    store_after TaskStore.repository DELETE_id (mkRequest "1" VUndefined)
      patched in
  posted = Sample.store
  /\ responses TaskStore.repository GET_id (mkRequest "1" VUndefined) posted
     = [(200, Task.to_value Sample.task)]
  /\ responses TaskStore.repository GET_id (mkRequest "2" VUndefined) posted
     = [(404, VStr "Task not found")]
  /\ responses TaskStore.repository PATCH_id (mkRequest "1" VUndefined) posted
     = [(500, type_error "title")]
  /\ TaskStore.rows patched
     = [{| Task.id := 1;
           Task.title := VStr "Workout";
           Task.description := VStr "jumping jacks";
           Task.dueDate := VNull;
           Task.isFinished := VBool true |}]
  /\ responses TaskStore.repository DELETE_id (mkRequest "1" VUndefined) patched
     = [(200, VStr "Task deleted successfully")]
  /\ responses TaskStore.repository GET_id (mkRequest "1" VUndefined) deleted
     = [(404, VStr "Task not found")]
  /\ responses TaskStore.repository DELETE_id (mkRequest "1" VUndefined) deleted
     = [(404, VStr "Task not found")]
  /\ responses TaskStore.repository GET_root (mkRequest "" VUndefined) deleted
     = [(200, VArr [])].
Proof. vm_compute. repeat split. Qed.

(* ===================================================================== *)
(** ** Further properties of the handlers, for every repository *)
(* ===================================================================== *)

Section HandlerEdges.

Context {St : Type} (repository : Repository St).

(** A property read throws only on [undefined] and [null], and then the
    [TypeError] of that read. *)
Lemma get_prop_thrown (v : value) (k : string) (e : value) :
  get_prop v k = Thrown e ->
  (v = VUndefined \/ v = VNull) /\ e = type_error k.
Proof.
  destruct v; cbn; intros [=]; subst; auto.
Qed.

Lemma get_prop_returned (v : value) (k k' : string) (x : value) :
  get_prop v k = Returned x -> exists y, get_prop v k' = Returned y.
Proof.
  destruct v; cbn; intros [=]; eauto.
Qed.

(** X1: POST / hands [save] the record [create] built from the body's
    [title], [description] and [dueDate], and answers 200 with the value
    [save] resolved to; the store is left as [save] left it. *)
Theorem post_reply (req : Request) (s s1 s2 : St)
    (title description dueDate record task : value) :
  get_prop (body req) "title" = Returned title ->
  get_prop (body req) "description" = Returned description ->
  get_prop (body req) "dueDate" = Returned dueDate ->
  create repository
    (obj [("title", title); ("description", description);
          ("dueDate", dueDate)]) s = (Returned record, s1) ->
  save repository record s1 = (Returned task, s2) ->
  responses repository POST_root req s = [(200, task)]
  /\ store_after repository POST_root req s = s2.
Proof.
  intros Ht Hd Hdd Hcreate Hsave. unfold_handler.
  rewrite Ht, Hd, Hdd, Hcreate.
  cbn [store res sent statusCode fst snd app].
  rewrite Hsave. split; reflexivity.
Qed.

(** X2: PATCH /:id reads the path id and the body's [title],
    [description], [dueDate] and [isFinished], and nothing else: two
    requests that agree on these are served alike, whatever else (an
    [id], say) their bodies hold. *)
Theorem patch_reads_four_fields (req req' : Request) (s : St) :
  params_id req = params_id req' ->
  get_prop (body req) "title" = get_prop (body req') "title" ->
  get_prop (body req) "description" = get_prop (body req') "description" ->
  get_prop (body req) "dueDate" = get_prop (body req') "dueDate" ->
  get_prop (body req) "isFinished" = get_prop (body req') "isFinished" ->
  serve repository PATCH_id req s = serve repository PATCH_id req' s.
Proof.
  intros Hid Ht Hd Hdd Hf. unfold_handler.
  rewrite Hid, Ht, Hd, Hdd, Hf. reflexivity.
Qed.

(** X3: the GET and DELETE handlers never read the body: GET / is served
    the same whatever the request, GET /:id and DELETE /:id the same for
    the same path id. *)
Theorem reads_ignore_body (req req' : Request) (s : St) :
  serve repository GET_root req s = serve repository GET_root req' s
  /\ (params_id req = params_id req' ->
      serve repository GET_id req s = serve repository GET_id req' s
      /\ serve repository DELETE_id req s
         = serve repository DELETE_id req' s).
Proof.
  split; [reflexivity |].
  intros Hid. unfold_handler. rewrite Hid. split; reflexivity.
Qed.

(** X4: when there is no body to read ([req.body] is [undefined] or
    [null]), POST / and PATCH /:id answer 500 with the [TypeError] of the
    first read, and no repository operation runs: the store is
    untouched. *)
Theorem no_body_gives_500 (r : Route) (req : Request) (s : St) :
  r = POST_root \/ r = PATCH_id ->
  body req = VUndefined \/ body req = VNull ->
  responses repository r req s = [(500, type_error "title")]
  /\ store_after repository r req s = s.
Proof.
  intros [-> | ->] [Hb | Hb]; unfold_handler; rewrite Hb;
    split; reflexivity.
Qed.

(** X5: a request runs the repository operations its handler awaits,
    once, and nothing else touches the store: the store after the
    request is the store the operation left, whether it resolved or
    rejected (no retry, no undo); on POST a rejected [create] means
    [save] is never run. *)
Theorem store_after_awaited (req : Request) (s : St) :
  store_after repository GET_root req s = snd (find repository s)
  /\ store_after repository GET_id req s
     = snd (findOne repository
              (obj [("where", obj [("id", VStr (params_id req))])]) s)
  /\ store_after repository DELETE_id req s
     = snd (delete repository (obj [("id", VStr (params_id req))]) s)
  /\ (forall title description dueDate isFinished : value,
        get_prop (body req) "title" = Returned title ->
        get_prop (body req) "description" = Returned description ->
        get_prop (body req) "dueDate" = Returned dueDate ->
        get_prop (body req) "isFinished" = Returned isFinished ->
        store_after repository PATCH_id req s
        = snd (update repository
                 (obj [("id", VStr (params_id req))])
                 (obj [("title", title); ("description", description);
                       ("dueDate", dueDate); ("isFinished", isFinished)]) s))
  /\ (forall title description dueDate : value,
        get_prop (body req) "title" = Returned title ->
        get_prop (body req) "description" = Returned description ->
        get_prop (body req) "dueDate" = Returned dueDate ->
        store_after repository POST_root req s
        = match create repository
                  (obj [("title", title); ("description", description);
                        ("dueDate", dueDate)]) s with
          | (Returned record, s1) => snd (save repository record s1)
          | (Thrown _, s1) => s1
          end).
Proof.
  repeat split.
  - unfold_handler. repeat step_handler; reflexivity.
  - unfold_handler. repeat step_handler; reflexivity.
  - unfold_handler. repeat step_handler; reflexivity.
  - intros title description dueDate isFinished Ht Hd Hdd Hf.
    unfold_handler. rewrite Ht, Hd, Hdd, Hf.
    cbn [store res sent statusCode fst snd app].
    repeat step_handler; reflexivity.
  - intros title description dueDate Ht Hd Hdd.
    unfold_handler. rewrite Ht, Hd, Hdd.
    cbn [store res sent statusCode fst snd app].
    repeat step_handler; reflexivity.
Qed.

(** X6: a 500 is sent only when something threw: an awaited repository
    operation (and then the body is its error), the first read of a body
    that is [undefined] or [null], or the read of [affected] on a result
    that is [undefined] or [null]. *)
Theorem error_reply_only_on_throw (r : Route) (req : Request) (s : St)
    (e : value) :
  responses repository r req s = [(500, e)] ->
  awaited_throws repository r req s e
  \/ ((r = POST_root \/ r = PATCH_id)
      /\ (body req = VUndefined \/ body req = VNull)
      /\ e = type_error "title")
  \/ ((r = PATCH_id \/ r = DELETE_id) /\ e = type_error "affected").
Proof.
  destruct r; unfold_handler; repeat step_handler; intros [= <-];
    repeat match goal with
           | H : get_prop _ _ = Thrown _ |- _ =>
               apply get_prop_thrown in H as [? ->]
           end;
    try (left; econstructor; eassumption);
    try (right; left; repeat split; auto; fail);
    try (right; right; split; auto; fail);
    exfalso;
    match goal with
    | H : get_prop (body req) _ = Returned _, Hb : body req = _ \/ body req = _
      |- _ => destruct Hb as [Hb | Hb]; rewrite Hb in H; discriminate
    end.
Qed.

(** X7: every 404 the routes send carries the same body,
    ["Task not found"], DELETE included. *)
Theorem not_found_body (r : Route) (req : Request) (s : St) (payload : value) :
  responses repository r req s = [(404, payload)] ->
  payload = VStr "Task not found".
Proof.
  destruct r; unfold_handler; repeat step_handler; intros [= <-];
    reflexivity.
Qed.

(** X8: PATCH /:id and DELETE /:id never send what the repository
    resolved to: short of a 500, the reply is the 404 ["Task not found"]
    or the 200 with the route's fixed sentence. *)
Theorem write_replies_are_fixed (r : Route) (req : Request) (s : St)
    (code : Z) (payload : value) :
  r = PATCH_id \/ r = DELETE_id ->
  responses repository r req s = [(code, payload)] ->
  code <> 500 ->
  (code = 404 /\ payload = VStr "Task not found")
  \/ (code = 200
      /\ payload = VStr (match r with
                        | PATCH_id => "Task updated successfully"
                        | _ => "Task deleted successfully"
                        end)).
Proof.
  intros [-> | ->]; unfold_handler; repeat step_handler;
    intros [= <- <-] Hcode; auto; contradiction.
Qed.

(** X9: when [update] or [delete] resolves to [undefined] or [null], the
    read of [result.affected] throws inside the [try]: the reply is 500
    with that [TypeError], although the operation has run and the store
    is as it left it. *)
Theorem result_unreadable_gives_500 (req : Request) (s s' : St)
    (result : value) :
  result = VUndefined \/ result = VNull ->
  (delete repository (obj [("id", VStr (params_id req))]) s
     = (Returned result, s') ->
   responses repository DELETE_id req s = [(500, type_error "affected")]
   /\ store_after repository DELETE_id req s = s')
  /\ (forall title description dueDate isFinished : value,
        get_prop (body req) "title" = Returned title ->
        get_prop (body req) "description" = Returned description ->
        get_prop (body req) "dueDate" = Returned dueDate ->
        get_prop (body req) "isFinished" = Returned isFinished ->
        update repository
          (obj [("id", VStr (params_id req))])
          (obj [("title", title); ("description", description);
                ("dueDate", dueDate); ("isFinished", isFinished)]) s
          = (Returned result, s') ->
        responses repository PATCH_id req s = [(500, type_error "affected")]
        /\ store_after repository PATCH_id req s = s').
Proof.
  intros Hres. split.
  - intros Hdel. unfold_handler. rewrite Hdel.
    destruct Hres as [-> | ->]; split; reflexivity.
  - intros title description dueDate isFinished Ht Hd Hdd Hf Hupd.
    unfold_handler. rewrite Ht, Hd, Hdd, Hf.
    cbn [store res sent statusCode fst snd app]. rewrite Hupd.
    destruct Hres as [-> | ->]; split; reflexivity.
Qed.

End HandlerEdges.

(** POST / with the sample task on the empty store. *)
Lemma post_reply_witness :
  save TaskStore.repository
    (obj [("title", VStr "Workout"); ("description", VStr "jumping jacks");
          ("dueDate", VUndefined)]) TaskStore.empty
    = (Returned (Task.to_value Sample.task), Sample.store)
  /\ responses TaskStore.repository POST_root (mkRequest "" Sample.workout)
       TaskStore.empty
     = [(200, Task.to_value Sample.task)]
  /\ store_after TaskStore.repository POST_root (mkRequest "" Sample.workout)
       TaskStore.empty
     = Sample.store.
Proof.
  split; [reflexivity |].
  apply (post_reply TaskStore.repository (mkRequest "" Sample.workout)
           TaskStore.empty TaskStore.empty Sample.store
           (VStr "Workout") (VStr "jumping jacks") VUndefined
           (obj [("title", VStr "Workout");
                 ("description", VStr "jumping jacks");
                 ("dueDate", VUndefined)])
           (Task.to_value Sample.task));
    reflexivity.
Defined.

(** PATCH /1 with the sample body, with and without the client's [id]. *)
Lemma patch_reads_four_fields_witness :
  get_prop Sample.workout_finished "isFinished"
    = get_prop (obj [("title", VStr "Workout");
                     ("description", VStr "jumping jacks");
                     ("isFinished", VBool true)]) "isFinished"
  /\ serve TaskStore.repository PATCH_id
       (mkRequest "1" Sample.workout_finished) Sample.store
     = serve TaskStore.repository PATCH_id
         (mkRequest "1" (obj [("title", VStr "Workout");
                              ("description", VStr "jumping jacks");
                              ("isFinished", VBool true)])) Sample.store.
Proof.
  split; [reflexivity |].
  apply (patch_reads_four_fields TaskStore.repository
           (mkRequest "1" Sample.workout_finished)
           (mkRequest "1" (obj [("title", VStr "Workout");
                                ("description", VStr "jumping jacks");
                                ("isFinished", VBool true)])) Sample.store);
    reflexivity.
Defined.

(** GET /1 and DELETE /1 with and without a body. *)
Lemma reads_ignore_body_witness :
  params_id (mkRequest "1" Sample.workout) = params_id (mkRequest "1" VUndefined)
  /\ serve TaskStore.repository DELETE_id (mkRequest "1" Sample.workout)
       Sample.store
     = serve TaskStore.repository DELETE_id (mkRequest "1" VUndefined)
         Sample.store.
Proof.
  split; [reflexivity |].
  apply (proj2 (reads_ignore_body TaskStore.repository
                  (mkRequest "1" Sample.workout) (mkRequest "1" VUndefined)
                  Sample.store) eq_refl).
Defined.

(** PATCH /1 without a body on the sample store. *)
Lemma no_body_gives_500_witness :
  body (mkRequest "1" VUndefined) = VUndefined
  /\ responses TaskStore.repository PATCH_id (mkRequest "1" VUndefined)
       Sample.store
     = [(500, type_error "title")]
  /\ store_after TaskStore.repository PATCH_id (mkRequest "1" VUndefined)
       Sample.store
     = Sample.store.
Proof.
  split; [reflexivity |].
  apply (no_body_gives_500 TaskStore.repository PATCH_id
           (mkRequest "1" VUndefined) Sample.store);
    [right | left]; reflexivity.
Defined.

(** POST / with a body the store rejects: [create] ran, [save] threw,
    and the store is as [save] left it. *)
Lemma store_after_awaited_witness :
  get_prop (obj [("title", VStr "Workout")]) "description" = Returned VUndefined
  /\ store_after TaskStore.repository POST_root
       (mkRequest "" (obj [("title", VStr "Workout")])) Sample.store
     = Sample.store.
Proof.
  split; [reflexivity |].
  pose proof (store_after_awaited TaskStore.repository
                (mkRequest "" (obj [("title", VStr "Workout")])) Sample.store)
    as (_ & _ & _ & _ & Hpost).
  rewrite (Hpost (VStr "Workout") VUndefined VUndefined eq_refl eq_refl eq_refl).
  reflexivity.
Defined.

(** GET /1 against the unreachable store: the 500 is the store's error. *)
Lemma error_reply_only_on_throw_witness :
  responses Offline.repository GET_id (mkRequest "1" VUndefined) tt
    = [(500, Offline.connection_error)]
  /\ awaited_throws Offline.repository GET_id (mkRequest "1" VUndefined) tt
       Offline.connection_error.
Proof.
  split; [reflexivity |].
  destruct (error_reply_only_on_throw Offline.repository GET_id
              (mkRequest "1" VUndefined) tt Offline.connection_error eq_refl)
    as [H | [([[=] | [=]] & _) | ([[=] | [=]] & _)]].
  exact H.
Defined.

(** DELETE /7 on the sample store. *)
Lemma not_found_body_witness :
  responses TaskStore.repository DELETE_id (mkRequest "7" VUndefined)
    Sample.store
  = [(404, VStr "Task not found")]
  /\ VStr "Task not found" = VStr "Task not found".
Proof.
  split; [reflexivity |].
  apply (not_found_body TaskStore.repository DELETE_id
           (mkRequest "7" VUndefined) Sample.store).
  reflexivity.
Defined.

(** DELETE /1 on the sample store. *)
Lemma write_replies_are_fixed_witness :
  responses TaskStore.repository DELETE_id (mkRequest "1" VUndefined)
    Sample.store
  = [(200, VStr "Task deleted successfully")]
  /\ 200 <> 500
  /\ ((200 = 404 /\ VStr "Task deleted successfully" = VStr "Task not found")
      \/ (200 = 200
          /\ VStr "Task deleted successfully"
             = VStr "Task deleted successfully")).
Proof.
  split; [reflexivity |]. split; [discriminate |].
  apply (write_replies_are_fixed TaskStore.repository DELETE_id
           (mkRequest "1" VUndefined) Sample.store 200
           (VStr "Task deleted successfully"));
    [right; reflexivity | reflexivity | discriminate].
Defined.

(** DELETE /1 against the stub, whose [delete] resolves to
    [undefined]. *)
Lemma result_unreadable_gives_500_witness :
  delete Stub.repository (obj [("id", VStr "1")]) tt = (Returned VUndefined, tt)
  /\ responses Stub.repository DELETE_id (mkRequest "1" VUndefined) tt
     = [(500, type_error "affected")].
Proof.
  split; [reflexivity |].
  apply (proj1 (result_unreadable_gives_500 Stub.repository
                  (mkRequest "1" VUndefined) tt tt VUndefined
                  (or_introl eq_refl)) eq_refl).
Defined.
